(** * Peano arithmetic rebuilt from a difference operator and a connection operator

    Shallow embedding of [Peano_from_deltasigma.py]: the tagged sum
    [Left]/[Right], the operators [delta] and [sigma], the numbers [Z]/[S]
    with their [__int__] conversion and their [__repr__] rendering, the
    functions [from_int], [add], [multiply], [is_zero] and [is_even], and
    the traced addition [trace_add], followed by the properties the
    specification states about them and by further laws of the code.

    Python's [int] is unbounded and is modelled by [BinNums.Z]. The
    interpreter's limit on the depth of the call stack is left out, as the
    specification leaves it out: every recursion below is total. *)

From Equations Require Import Equations.
From Equations.Prop Require Import Logic.
From Stdlib Require Import ZArith Lia Bool.
From Stdlib Require Import List String DecimalString.
Import ListNotations.

(** Python's unbounded [int]. *)
Abbreviation int := BinNums.Z (only parsing).

Module DeltaSigma.

(** ** Sum type *)

(** [Left] and [Right] are frozen dataclasses with one field, [value]. *)
Inductive Sum (T : Type) : Type :=
| Left (value : T)
| Right (value : T).
Arguments Left {T} value.
Arguments Right {T} value.

(** [isinstance(choice, Left)]. *)
Definition isinstance_Left {T : Type} (choice : Sum T) : bool :=
  match choice with
  | Left _ => true
  | Right _ => false
  end.

(** ** Natural numbers *)

(** [Nat = Union[Z, S]]: [Z] has no field, [S] has the field [pred], which
    the source annotates as a [Nat]. Both classes are frozen dataclasses,
    compared field by field, which is Rocq's equality on this type. *)
Inductive Nat : Type :=
| Z
| S (pred : Nat).

(** [Z.__int__] and [S.__int__], reached through [int(n)]. *)
Fixpoint __int__ (n : Nat) : int :=
  match n with
  | Z => 0
  | S pred => 1 + __int__ pred
  end%Z.

Definition zero : Nat := Z.

Definition succ (n : Nat) : Nat := S n.

(** ** Difference operator *)

(** [delta] takes a value of any type and asks [isinstance(x, Z)] of it.
    The run-time class test is the interface a type has to offer. *)
Class Dynamic (T : Type) : Type :=
  isinstance_Z : T -> bool.

#[export] Instance Nat_Dynamic : Dynamic Nat :=
  fun x => match x with Z => true | S _ => false end.

(** A Python [int] is never an instance of [Z]. *)
#[export] Instance int_Dynamic : Dynamic int :=
  fun _ => false.

(** [force_right] defaults to [False] in the source: a call [delta(x)] is
    [delta x false] here. *)
Definition delta {T : Type} `{Dynamic T} (x : T) (force_right : bool) : Sum T :=
  if force_right then Right x
  else if isinstance_Z x then Left x
  else Right x.

(** ** Connection operator *)

Definition sigma {T : Type} (pair : T * T) (op : T -> T -> T) : T :=
  let '(a, b) := pair in op a b.

(** ** Construction from an integer *)

Equations? from_int (n : int) : Nat by wf (Z.to_nat n) lt :=
  from_int n with inspect (n <=? 0)%Z := {
    | exist _ true _ => Z
    | exist _ false _ => S (from_int (n - 1)) }.
Proof. apply Z.leb_gt in e. lia. Qed.

(** ** Addition and multiplication *)

(** Number of [S] constructors, the measure of the recursions on the
    second operand. *)
Fixpoint height (n : Nat) : nat :=
  match n with
  | Z => 0
  | S pred => 1 + height pred
  end.

(** [b.pred if isinstance(b, S) else Z()]. *)
Definition pred_or_Z (b : Nat) : Nat :=
  match b with
  | S pred => pred
  | _ => Z
  end.

(** On the [Right] branch of [delta b] the operand [b] is an [S], so the
    recursive calls below are on a shorter chain. *)
Ltac right_branch_decreases b :=
  destruct b; [discriminate | cbn [pred_or_Z height]; lia].

Equations? add (a b : Nat) : Nat by wf (height b) lt :=
  add a b with inspect (delta b false) := {
    | exist _ (Left _) _ => a
    | exist _ (Right _) _ => succ (add a (pred_or_Z b)) }.
Proof. right_branch_decreases b. Qed.

Equations? multiply (a b : Nat) : Nat by wf (height b) lt :=
  multiply a b with inspect (delta b false) := {
    | exist _ (Left _) _ => Z
    | exist _ (Right _) _ => add a (multiply a (pred_or_Z b)) }.
Proof. right_branch_decreases b. Qed.

(** ** Predicates *)

Definition is_zero (n : Nat) : bool :=
  let choice := delta n false in
  isinstance_Left choice.

(** On a value that is [Z] or [S] one of the first two tests succeeds, so
    the closing [return False] of the source is never reached. *)
Equations is_even (n : Nat) : bool by wf (height n) lt :=
  is_even Z := true;
  is_even (S Z) := false;
  is_even (S n_pred) := is_even (pred_or_Z n_pred).

(** ** Rendering *)

(** [Z.__repr__] and [S.__repr__]. The f-string [f"S({self.pred})"] renders
    the field through [str], which for these classes is [__repr__] again. *)
Fixpoint __repr__ (n : Nat) : string :=
  match n with
  | Z => "Z"
  | S pred => "S(" ++ __repr__ pred ++ ")"
  end%string.

(** [str(k)] for an [int]: decimal digits, with a sign when negative. *)
Definition str (k : int) : string :=
  NilZero.string_of_int (Z.to_int k).

Fixpoint repeat_string (s : string) (k : nat) : string :=
  match k with
  | O => ""
  | Datatypes.S k' => s ++ repeat_string s k'
  end%string.

(** [s * k] for a [str] and an [int]: empty when [k] is not positive. *)
Definition str_mul (s : string) (k : int) : string :=
  repeat_string s (Z.to_nat k).

(** ** Traced addition *)

(** Standard output, as the lines printed so far, oldest first. None of the
    strings printed below holds a line break, so one [print] is one line. *)
Definition stdout : Type := list string.

Definition print (line : string) (out : stdout) : stdout :=
  (out ++ [line])%list.

(** The five f-strings of [trace_add], each given the [indent] and the
    values it interpolates. *)
Definition line_call (indent : string) (a b : Nat) (depth : int) : string :=
  (indent ++ "add(" ++ __repr__ a ++ ", " ++ __repr__ b
     ++ ") [глубина: " ++ str depth ++ "]")%string.

Definition line_base (indent : string) (a : Nat) : string :=
  (indent ++ "Δ: базовый случай -> возвращаем " ++ __repr__ a)%string.

Definition line_inductive (indent : string) : string :=
  (indent ++ "Δ: индуктивный случай -> рекурсия")%string.

Definition line_sigma (indent : string) : string :=
  (indent ++ "Σ: применяем succ к результату")%string.

Definition line_result (indent : string) (depth : int) (result : Nat) : string :=
  (indent ++ "Результат уровня " ++ str depth ++ ": " ++ __repr__ result)%string.

(** [trace_add] of [demo_recursion_depth]: [add] with a line printed at
    every step. [depth] defaults to [0] in the source. The source prints
    the first line and then calls [delta]; [delta] prints nothing, so the
    lines come out in the same order here. *)
Equations? trace_add (a b : Nat) (depth : int) (out : stdout) : Nat * stdout
  by wf (height b) lt :=
  trace_add a b depth out with inspect (delta b false) := {
    | exist _ (Left _) _ =>
        let indent := str_mul "  " depth in
        let out := print (line_call indent a b depth) out in
        let out := print (line_base indent a) out in
        (a, out)
    | exist _ (Right _) _ =>
        let indent := str_mul "  " depth in
        let out := print (line_call indent a b depth) out in
        let b_pred := pred_or_Z b in
        let out := print (line_inductive indent) out in
        let out := print (line_sigma indent) out in
        let '(intermediate, out) := trace_add a b_pred (depth + 1) out in
        let result := succ intermediate in
        let out := print (line_result indent depth result) out in
        (result, out) }.
Proof. subst b_pred. right_branch_decreases b. Qed.

(** The last line one call of [trace_add] prints: the base-case line
    when the second operand is [Z], the result line otherwise. *)
Definition closing_line (a b : Nat) (depth : int) : string :=
  match b with
  | Z => line_base (str_mul "  " depth) a
  | S _ => line_result (str_mul "  " depth) depth (add a b)
  end.

(** ** Unfolding equations *)

Lemma from_int_nonpos (n : int) : (n <= 0)%Z -> from_int n = Z.
Proof.
  intros Hn. funelim (from_int n).
  - reflexivity.
  - pose proof (proj1 (Z.leb_gt _ _) e). lia.
Qed.

Lemma from_int_pos (n : int) : (0 < n)%Z -> from_int n = S (from_int (n - 1)).
Proof.
  intros Hn. funelim (from_int n).
  - pose proof (proj1 (Z.leb_le _ _) e). lia.
  - reflexivity.
Qed.

(** The body of [add], as the source has it. *)
Lemma add_body (a b : Nat) :
  add a b =
  match delta b false with
  | Left _ => a
  | Right _ => succ (add a (pred_or_Z b))
  end.
Proof. destruct b; rewrite add_equation_1; reflexivity. Qed.

(** The body of [multiply], as the source has it. *)
Lemma multiply_body (a b : Nat) :
  multiply a b =
  match delta b false with
  | Left _ => Z
  | Right _ => add a (multiply a (pred_or_Z b))
  end.
Proof. destruct b; rewrite multiply_equation_1; reflexivity. Qed.

Lemma add_Z (a : Nat) : add a Z = a.
Proof. rewrite add_body. reflexivity. Qed.

Lemma add_S (a b : Nat) : add a (S b) = S (add a b).
Proof. rewrite add_body. reflexivity. Qed.

Lemma multiply_Z (a : Nat) : multiply a Z = Z.
Proof. rewrite multiply_body. reflexivity. Qed.

Lemma multiply_S (a b : Nat) : multiply a (S b) = add a (multiply a b).
Proof. rewrite multiply_body. reflexivity. Qed.

Lemma is_even_SS (m : Nat) : is_even (S (S m)) = is_even m.
Proof. rewrite is_even_equation_3. reflexivity. Qed.

Create Rewrite HintDb peano.
#[local] Hint Rewrite add_Z add_S multiply_Z multiply_S : peano.
#[local] Hint Rewrite is_even_equation_1 is_even_equation_2 is_even_SS : peano.

(** Rewrite with the equations of [add], [multiply] and [is_even], then
    expose the arithmetic of [__int__]. *)
Ltac peano_simp := autorewrite with peano; cbn [__int__ succ zero].

(** ** Facts about [__int__] *)

Lemma int_nonneg (n : Nat) : (0 <= __int__ n)%Z.
Proof. induction n as [|n IH]; cbn [__int__]; lia. Qed.

Lemma int_zero_inv (n : Nat) : __int__ n = 0%Z -> n = Z.
Proof.
  destruct n as [|n]; [reflexivity|].
  cbn [__int__]. pose proof (int_nonneg n). lia.
Qed.

Lemma int_add (a b : Nat) : __int__ (add a b) = (__int__ a + __int__ b)%Z.
Proof.
  induction b as [|b IH]; peano_simp.
  - lia.
  - rewrite IH. lia.
Qed.

Lemma int_multiply (a b : Nat) :
  __int__ (multiply a b) = (__int__ a * __int__ b)%Z.
Proof.
  induction b as [|b IH]; peano_simp.
  - lia.
  - rewrite int_add, IH. lia.
Qed.

(** ** Properties of the difference operator *)

(** C3. [delta(Z)] is [Left(Z)]; [delta(S(n))] is [Right(S(n))] for every
    number [n]; with [force_right=True] the result is [Right(x)] for every
    input [x] of every type, and for [Z] in particular. *)
Theorem delta_classifies :
  delta Z false = Left Z
  /\ (forall n : Nat, delta (S n) false = Right (S n))
  /\ (forall (T : Type) (D : Dynamic T) (x : T), delta x true = Right x)
  /\ delta Z true = Right Z.
Proof. repeat split. Qed.

(** ** Properties of [from_int] *)

(** C5. A non-negative integer [k] is read back from [from_int k] by
    [__int__]; a negative integer gives [Z]. *)
Theorem from_int_spec (k : int) :
  ((0 <= k)%Z -> __int__ (from_int k) = k)
  /\ ((k < 0)%Z -> from_int k = Z).
Proof.
  split.
  - revert k. apply natlike_ind.
    + rewrite from_int_nonpos by lia. reflexivity.
    + intros k Hk IH. rewrite from_int_pos by lia.
      cbn [__int__]. replace (Z.succ k - 1)%Z with k by lia.
      rewrite IH. lia.
  - intros Hk. apply from_int_nonpos. lia.
Qed.

Lemma from_int_spec_witness :
  __int__ (from_int 3) = 3%Z /\ from_int (-2) = Z.
Proof.
  split.
  - apply (proj1 (from_int_spec 3)). lia.
  - apply (proj2 (from_int_spec (-2))). lia.
Defined.

(** ** Properties of [add] *)

(** C1. The integer of a sum is the sum of the integers. *)
Theorem add_value (a b : Nat) :
  __int__ (add a b) = (__int__ a + __int__ b)%Z.
Proof.
  funelim (add a b).
  - (* Left branch: [b] is [Z] and the call returned [a] *)
    clear H Heqcall. destruct b; [|discriminate]. cbn [__int__]. lia.
  - (* Right branch: [b] is [S pred], with the fact for the inner call *)
    clear H0 Heqcall. destruct b; [discriminate|].
    cbn [pred_or_Z succ __int__] in *. lia.
Qed.

(** C6. Adding [zero()] on the right returns the first operand itself. *)
Theorem add_zero_right (a : Nat) : add a zero = a.
Proof. unfold zero. apply add_Z. Qed.

(** C9. Adding to [zero()] on the left rebuilds the second operand. *)
Theorem add_zero_left (b : Nat) : add zero b = b.
Proof.
  unfold zero. induction b as [|b IH]; peano_simp.
  - reflexivity.
  - rewrite IH. reflexivity.
Qed.

(** C7. At the level of [__int__], [add] is commutative and associative. *)
Theorem add_comm_assoc_value (a b c : Nat) :
  __int__ (add a b) = __int__ (add b a)
  /\ __int__ (add (add a b) c) = __int__ (add a (add b c)).
Proof. rewrite !int_add. lia. Qed.

(** ** Properties of [multiply] *)

(** C2. The integer of a product is the product of the integers, and a
    product with [zero()] on the right has the integer 0. *)
Theorem multiply_value :
  (forall a b : Nat, __int__ (multiply a b) = (__int__ a * __int__ b)%Z)
  /\ (forall a : Nat, __int__ (multiply a zero) = 0%Z).
Proof.
  split.
  - exact int_multiply.
  - intros a. unfold zero. rewrite multiply_Z. reflexivity.
Qed.

(** ** Properties of the predicates *)

(** C8. [is_zero n] holds exactly when the integer of [n] is 0, and
    exactly when [delta n] is the [Left] tag around [n]. *)
Theorem is_zero_spec (n : Nat) :
  (is_zero n = true <-> __int__ n = 0%Z)
  /\ (is_zero n = true <-> delta n false = Left n).
Proof.
  unfold is_zero, delta, isinstance_Z, Nat_Dynamic.
  destruct n as [|n]; cbn [isinstance_Left __int__].
  - repeat split; reflexivity.
  - pose proof (int_nonneg n). repeat split; intros; try discriminate; lia.
Qed.

(** C10. [is_even] of [succ n] is the negation of [is_even n]. *)
Theorem is_even_succ (n : Nat) : is_even (succ n) = negb (is_even n).
Proof.
  unfold succ. funelim (is_even n).
  - rewrite is_even_equation_2. reflexivity.
  - rewrite is_even_SS, is_even_equation_1. reflexivity.
  - rewrite is_even_SS. cbn [pred_or_Z]. assumption.
Qed.

(** C4. [is_even n] holds exactly when the integer of [n] is divisible by
    2, and it is computed by the cases [Z], [S(Z)] and [S(S(m))]. *)
Theorem is_even_spec :
  (forall n : Nat, is_even n = true <-> (__int__ n mod 2 = 0)%Z)
  /\ is_even Z = true
  /\ is_even (S Z) = false
  /\ (forall m : Nat, is_even (S (S m)) = is_even m).
Proof.
  split; [|repeat split; auto using is_even_SS].
  intros n. funelim (is_even n).
  - split; reflexivity.
  - split; discriminate.
  - cbn [pred_or_Z __int__] in *.
    match goal with IH : _ <-> _ |- _ => rewrite IH end.
    generalize (__int__ pred0). intros x.
    split; intros Hx; Z.to_euclidean_division_equations; lia.
Qed.

(** ** Structural equality and the integer *)

Lemma int_inj (a b : Nat) : __int__ a = __int__ b -> a = b.
Proof.
  revert b. induction a as [|a IH]; intros [|b]; cbn [__int__]; intros H.
  - reflexivity.
  - pose proof (int_nonneg b). lia.
  - pose proof (int_nonneg a). lia.
  - f_equal. apply IH. lia.
Qed.

Lemma int_from_int (k : int) : __int__ (from_int k) = Z.max 0 k.
Proof.
  destruct (Z.le_gt_cases 0 k) as [Hk|Hk].
  - revert k Hk. apply natlike_ind.
    + rewrite from_int_nonpos by lia. reflexivity.
    + intros k Hk IH. rewrite from_int_pos by lia. cbn [__int__].
      replace (Z.succ k - 1)%Z with k by lia. rewrite IH. lia.
  - rewrite from_int_nonpos by lia. cbn [__int__]. lia.
Qed.

Lemma add_S_l (a b : Nat) : add (S a) b = S (add a b).
Proof.
  induction b as [|b IH]; peano_simp.
  - reflexivity.
  - rewrite IH. reflexivity.
Qed.

(** Close a goal [x = y] between numbers by comparing their integers. *)
Ltac by_int :=
  apply int_inj;
  repeat first [rewrite int_add | rewrite int_multiply | rewrite int_from_int];
  cbn [__int__ succ zero]; try lia; try ring.

(** X1. Two numbers are equal as dataclass values exactly when their
    integers are equal: no integer has two representations. *)
Theorem nat_eq_iff_int_eq (a b : Nat) : a = b <-> __int__ a = __int__ b.
Proof. split; [intros ->; reflexivity | apply int_inj]. Qed.

(** X2. Round trip from a number: [from_int(int(n))] rebuilds [n]. *)
Theorem from_int_int_roundtrip (n : Nat) : from_int (__int__ n) = n.
Proof.
  induction n as [|n IH]; cbn [__int__].
  - apply from_int_nonpos. lia.
  - pose proof (int_nonneg n). rewrite from_int_pos by lia.
    replace (1 + __int__ n - 1)%Z with (__int__ n) by lia.
    rewrite IH. reflexivity.
Qed.

(** X3. [from_int] clamps at zero: for every integer [k], also a negative
    one, the integer of [from_int k] is [max(0, k)], and [from_int k] is
    the number built from [max(0, k)]. *)
Theorem from_int_clamps (k : int) :
  __int__ (from_int k) = Z.max 0 k
  /\ from_int k = from_int (Z.max 0 k).
Proof.
  split; [apply int_from_int|].
  apply int_inj. rewrite !int_from_int. lia.
Qed.

(** ** Structural laws of [add] *)

(** X4. [add] is commutative on the structures themselves, not only on
    their integers. *)
Theorem add_commutative (a b : Nat) : add a b = add b a.
Proof.
  induction b as [|b IH]; peano_simp.
  - induction a as [|a IHa]; peano_simp; [reflexivity|].
    rewrite <- IHa. reflexivity.
  - rewrite add_S_l, IH. reflexivity.
Qed.

(** X5. [add] is associative on the structures themselves. *)
Theorem add_associative (a b c : Nat) :
  add (add a b) c = add a (add b c).
Proof.
  induction c as [|c IH]; peano_simp.
  - reflexivity.
  - rewrite IH. reflexivity.
Qed.

(** X6. A [succ] on either operand of [add] moves to the result. *)
Theorem add_succ_moves_out (a b : Nat) :
  add (succ a) b = succ (add a b)
  /\ add a (succ b) = succ (add a b).
Proof. unfold succ. split; [apply add_S_l | apply add_S]. Qed.

(** X7. [add] can be cancelled on either side. *)
Theorem add_cancel (a b c : Nat) :
  (add a b = add a c <-> b = c)
  /\ (add b a = add c a <-> b = c).
Proof.
  split; (split; [intros H | intros ->; reflexivity]);
    apply (f_equal __int__) in H; rewrite !int_add in H;
    apply int_inj; lia.
Qed.

(** X8. A sum is zero exactly when both operands are zero. *)
Theorem is_zero_add (a b : Nat) :
  is_zero (add a b) = is_zero a && is_zero b.
Proof.
  destruct b as [|b]; peano_simp.
  - rewrite andb_true_r. reflexivity.
  - rewrite andb_false_r. reflexivity.
Qed.

(** ** Structural laws of [multiply] *)

(** X9. [multiply] is commutative on the structures themselves. *)
Theorem multiply_commutative (a b : Nat) : multiply a b = multiply b a.
Proof. by_int. Qed.

(** X10. [multiply] is associative on the structures themselves. *)
Theorem multiply_associative (a b c : Nat) :
  multiply (multiply a b) c = multiply a (multiply b c).
Proof. by_int. Qed.

(** X11. [multiply] distributes over [add] from both sides. *)
Theorem multiply_distributes (a b c : Nat) :
  multiply a (add b c) = add (multiply a b) (multiply a c)
  /\ multiply (add a b) c = add (multiply a c) (multiply b c).
Proof. split; by_int. Qed.

(** X12. [S(Z)] is a two-sided identity of [multiply], and [Z] on the left
    gives [Z], as it does on the right. *)
Theorem multiply_one_and_zero (a : Nat) :
  multiply a (S Z) = a
  /\ multiply (S Z) a = a
  /\ multiply Z a = Z.
Proof.
  split; [|split].
  - peano_simp. reflexivity.
  - by_int.
  - by_int.
Qed.

(** X13. A product is zero exactly when one of the operands is zero. *)
Theorem is_zero_multiply (a b : Nat) :
  is_zero (multiply a b) = is_zero a || is_zero b.
Proof.
  induction b as [|b IH]; peano_simp.
  - rewrite orb_true_r. reflexivity.
  - change (is_zero (S b)) with false. rewrite orb_false_r.
    destruct (multiply a b) as [|m]; peano_simp.
    + reflexivity.
    + change (is_zero (S m)) with false in IH.
      symmetry in IH. apply orb_false_elim in IH.
      destruct IH as [Ha _]. rewrite Ha. reflexivity.
Qed.

(** X25. A factor other than [Z] can be cancelled from a product. *)
Theorem multiply_cancel (a b c : Nat) :
  a <> Z -> multiply a b = multiply a c -> b = c.
Proof.
  intros Ha H. apply (f_equal __int__) in H. rewrite !int_multiply in H.
  apply int_inj. apply (Z.mul_reg_l _ _ (__int__ a)); [|exact H].
  intros H0. apply Ha, int_zero_inv, H0.
Qed.

Lemma multiply_cancel_witness : S Z = S Z.
Proof.
  apply (multiply_cancel (S (S Z)) (S Z) (S Z)); [discriminate | reflexivity].
Defined.

(** ** Parity of sums and products *)

Lemma is_even_flip (n : Nat) : is_even (S n) = negb (is_even n).
Proof.
  induction n as [|n IH]; peano_simp.
  - reflexivity.
  - rewrite IH, negb_involutive. reflexivity.
Qed.

(** X14. A sum is even exactly when its operands have the same parity,
    and a product is even exactly when one of its operands is even. *)
Theorem is_even_add_multiply (a b : Nat) :
  is_even (add a b) = Bool.eqb (is_even a) (is_even b)
  /\ is_even (multiply a b) = is_even a || is_even b.
Proof.
  assert (Hadd : forall y, is_even (add a y) = Bool.eqb (is_even a) (is_even y)).
  { induction y as [|y IH].
    - peano_simp. destruct (is_even a); reflexivity.
    - rewrite add_S, !is_even_flip, IH.
      destruct (is_even a), (is_even y); reflexivity. }
  split; [apply Hadd|].
  induction b as [|b IH].
  - peano_simp. rewrite orb_true_r. reflexivity.
  - rewrite multiply_S, Hadd, IH, is_even_flip.
    destruct (is_even a), (is_even b); reflexivity.
Qed.

(** ** [from_int] and the operations *)

(** X15. On non-negative integers [from_int] turns [+] into [add]. *)
Theorem from_int_add (j k : int) :
  (0 <= j)%Z -> (0 <= k)%Z ->
  from_int (j + k) = add (from_int j) (from_int k).
Proof. intros Hj Hk. by_int. Qed.

Lemma from_int_add_witness :
  from_int (2 + 3) = add (from_int 2) (from_int 3).
Proof. apply (from_int_add 2 3); lia. Defined.

(** X16. On non-negative integers [from_int] turns [*] into [multiply]. *)
Theorem from_int_mul (j k : int) :
  (0 <= j)%Z -> (0 <= k)%Z ->
  from_int (j * k) = multiply (from_int j) (from_int k).
Proof. intros Hj Hk. by_int. Qed.

Lemma from_int_mul_witness :
  from_int (2 * 3) = multiply (from_int 2) (from_int 3).
Proof. apply (from_int_mul 2 3); lia. Defined.

(** X17. [is_zero(from_int(k))] is the test [k <= 0] of [from_int]'s guard,
    for every integer [k]. *)
Theorem is_zero_from_int (k : int) : is_zero (from_int k) = (k <=? 0)%Z.
Proof.
  destruct (Z.leb_spec k 0) as [Hk|Hk].
  - rewrite from_int_nonpos by lia. reflexivity.
  - rewrite from_int_pos by lia. reflexivity.
Qed.

(** X18. On a non-negative integer [k], [is_even(from_int(k))] is the
    parity of [k]. *)
Theorem is_even_from_int (k : int) :
  (0 <= k)%Z -> is_even (from_int k) = Z.even k.
Proof.
  revert k. apply natlike_ind.
  - rewrite from_int_nonpos by lia. reflexivity.
  - intros k Hk IH. rewrite from_int_pos by lia.
    replace (Z.succ k - 1)%Z with k by lia.
    rewrite is_even_flip, IH, Z.even_succ, Z.negb_even. reflexivity.
Qed.

Lemma is_even_from_int_witness : is_even (from_int 4) = Z.even 4.
Proof. apply (is_even_from_int 4). lia. Defined.

(** ** Rendering *)

Lemma int_height (n : Nat) : Z.of_nat (height n) = __int__ n.
Proof. induction n as [|n IH]; cbn [height __int__]; lia. Qed.

Lemma string_length_append (s t : string) :
  String.length (s ++ t) = String.length s + String.length t.
Proof. induction s as [|c s IH]; cbn; [reflexivity | rewrite IH; reflexivity]. Qed.

Lemma string_append_assoc (s t u : string) :
  ((s ++ t) ++ u = s ++ (t ++ u))%string.
Proof. induction s as [|c s IH]; cbn; [reflexivity | rewrite IH; reflexivity]. Qed.

Lemma repeat_string_snoc (s : string) (k : nat) :
  (repeat_string s k ++ s = s ++ repeat_string s k)%string.
Proof.
  induction k as [|k IH]; cbn [repeat_string].
  - destruct s; cbn; [reflexivity|]. f_equal.
    induction s as [|c s IHs]; cbn; [reflexivity | rewrite <- IHs; reflexivity].
  - rewrite string_append_assoc, IH. reflexivity.
Qed.

Lemma repr_length (n : Nat) : String.length (__repr__ n) = 3 * height n + 1.
Proof.
  induction n as [|n IH]; [reflexivity|].
  cbn [__repr__ height]. rewrite !string_length_append, IH. cbn. lia.
Qed.

(** X19. The rendering of a number of integer [k] is [k] copies of ["S("],
    then ["Z"], then [k] closing brackets: [3k + 1] characters. *)
Theorem repr_shape (n : Nat) :
  __repr__ n
  = (str_mul "S(" (__int__ n) ++ "Z" ++ str_mul ")" (__int__ n))%string
  /\ Z.of_nat (String.length (__repr__ n)) = (3 * __int__ n + 1)%Z.
Proof.
  split; [|rewrite repr_length, <- int_height; lia].
  unfold str_mul. rewrite <- int_height, Nat2Z.id.
  induction n as [|n IH]; [reflexivity|].
  cbn [__repr__ height Nat.add repeat_string]. rewrite IH.
  rewrite !string_append_assoc. do 2 f_equal.
  change (")" ++ repeat_string ")" (height n))%string
    with (repeat_string ")" (1 + height n)).
  cbn [Nat.add repeat_string]. rewrite <- repeat_string_snoc. reflexivity.
Qed.

(** X20. Two numbers have the same rendering exactly when they are the
    same number. *)
Theorem repr_injective (a b : Nat) : __repr__ a = __repr__ b <-> a = b.
Proof.
  split; [|intros ->; reflexivity].
  intros H. apply (f_equal String.length) in H.
  rewrite !repr_length in H. apply int_inj.
  rewrite <- !int_height. lia.
Qed.

(** ** Traced addition *)

Lemma trace_add_Z (a : Nat) (depth : int) (out : stdout) :
  trace_add a Z depth out
  = (a, print (line_base (str_mul "  " depth) a)
          (print (line_call (str_mul "  " depth) a Z depth) out)).
Proof. rewrite trace_add_equation_1. reflexivity. Qed.

Lemma trace_add_S (a b : Nat) (depth : int) (out : stdout) :
  trace_add a (S b) depth out
  = let indent := str_mul "  " depth in
    let '(intermediate, out') :=
      trace_add a b (depth + 1)
        (print (line_sigma indent)
           (print (line_inductive indent)
              (print (line_call indent a (S b) depth) out))) in
    (succ intermediate,
     print (line_result indent depth (succ intermediate)) out').
Proof. rewrite trace_add_equation_1. reflexivity. Qed.

(** What one call of [trace_add] returns and prints, by induction on the
    second operand. *)
Lemma trace_add_run (a b : Nat) :
  forall (depth : int) (out : stdout),
  exists middle : list string,
    trace_add a b depth out
    = (add a b,
       (out ++ line_call (str_mul "  " depth) a b depth :: middle
            ++ [closing_line a b depth])%list)
    /\ List.length middle = 4 * height b
    /\ In (line_base (str_mul "  " (depth + Z.of_nat (height b))) a)
          (middle ++ [closing_line a b depth])%list.
Proof.
  induction b as [|b IH]; intros depth out.
  - exists []. rewrite trace_add_Z, add_Z. unfold print.
    rewrite <- app_assoc. cbn [height closing_line app List.length].
    rewrite Z.add_0_r. repeat split. left. reflexivity.
  - rewrite trace_add_S. cbv zeta.
    match goal with |- context [trace_add a b ?d ?o] =>
      destruct (IH d o) as (mid & Hrun & Hlen & Hin); rewrite Hrun
    end.
    exists (line_inductive (str_mul "  " depth)
              :: line_sigma (str_mul "  " depth)
              :: line_call (str_mul "  " (depth + 1)) a b (depth + 1)
              :: mid ++ [closing_line a b (depth + 1)])%list.
    rewrite add_S. unfold print, succ. cbn [closing_line].
    repeat split.
    + f_equal. rewrite add_S, <- !app_assoc. cbn [app].
      rewrite <- !app_assoc. reflexivity.
    + cbn [List.length height]. rewrite length_app, Hlen. cbn. lia.
    + replace (depth + Z.of_nat (height (S b)))%Z
        with (depth + 1 + Z.of_nat (height b))%Z by (cbn [height]; lia).
      cbn [app]. do 3 right. apply in_or_app. left. exact Hin.
Qed.

(** X21. [trace_add] returns what [add] returns, whatever the depth it
    starts from and whatever was printed before. *)
Theorem trace_add_result (a b : Nat) (depth : int) (out : stdout) :
  fst (trace_add a b depth out) = add a b.
Proof.
  destruct (trace_add_run a b depth out) as (mid & Hrun & _).
  rewrite Hrun. reflexivity.
Qed.

(** X22. [trace_add] keeps what was printed before and appends
    [4 * int(b) + 2] lines to it. *)
Theorem trace_add_line_count (a b : Nat) (depth : int) (out : stdout) :
  exists lines : list string,
    snd (trace_add a b depth out) = (out ++ lines)%list
    /\ Z.of_nat (List.length lines) = (4 * __int__ b + 2)%Z.
Proof.
  destruct (trace_add_run a b depth out) as (mid & Hrun & Hlen & _).
  rewrite Hrun. cbn [snd]. eexists. split; [reflexivity|].
  cbn [List.length]. rewrite length_app, Hlen, <- int_height.
  cbn [List.length]. lia.
Qed.

(** X23. The lines of one call are framed: the first names the call and
    its depth, and the last is the base-case line when [b] is [Z] and
    otherwise the result line of that depth with the rendering of
    [add a b]. *)
Theorem trace_add_frame (a b : Nat) (depth : int) (out : stdout) :
  exists middle : list string,
    snd (trace_add a b depth out)
    = (out ++ [line_call (str_mul "  " depth) a b depth] ++ middle
           ++ [match b with
               | Z => line_base (str_mul "  " depth) a
               | S _ => line_result (str_mul "  " depth) depth (add a b)
               end])%list.
Proof.
  destruct (trace_add_run a b depth out) as (mid & Hrun & _).
  exists mid. rewrite Hrun. reflexivity.
Qed.

(** X24. The recursion bottoms out [int(b)] levels below the depth it
    starts from: the base-case line, with the first operand as the value
    returned, is printed at depth [depth + int(b)]. *)
Theorem trace_add_bottom (a b : Nat) (depth : int) (out : stdout) :
  exists before after : list string,
    snd (trace_add a b depth out)
    = (out ++ before
           ++ line_base (str_mul "  " (depth + __int__ b)) a :: after)%list.
Proof.
  destruct (trace_add_run a b depth out) as (mid & Hrun & _ & Hin).
  rewrite int_height in Hin. apply in_split in Hin.
  destruct Hin as (l1 & l2 & Hsplit).
  exists (line_call (str_mul "  " depth) a b depth :: l1), l2.
  rewrite Hrun. cbn [snd]. rewrite Hsplit. reflexivity.
Qed.

(** ** The scenarios the demonstration prints *)

Example add_2_3 :
  add (from_int 2) (from_int 3) = S (S (S (S (S Z))))
  /\ __int__ (add (from_int 2) (from_int 3)) = 5%Z.
Proof. split; reflexivity. Qed.

Example multiply_2_3 : __int__ (multiply (from_int 2) (from_int 3)) = 6%Z.
Proof. reflexivity. Qed.

Example is_zero_0_1 :
  is_zero (from_int 0) = true /\ is_zero (from_int 1) = false.
Proof. split; reflexivity. Qed.

Example is_even_0_1_4 :
  is_even (from_int 0) = true
  /\ is_even (from_int 1) = false
  /\ is_even (from_int 4) = true.
Proof. repeat split. Qed.

Example delta_0_1 :
  delta (from_int 0) false = Left (from_int 0)
  /\ delta (from_int 1) false = Right (from_int 1).
Proof. split; reflexivity. Qed.

(** A value that is not a [Nat] at all still gets a tag. *)
Example delta_of_int : delta 5%Z false = Right 5%Z.
Proof. reflexivity. Qed.

Example sigma_succ_after_add :
  sigma (from_int 2, from_int 1) (fun a b => succ (add a b)) = from_int 4.
Proof. reflexivity. Qed.

End DeltaSigma.
